(** * Host metrics receiver: factory, scraper registry and collaborators

    A shallow embedding of [receiver/hostmetricsreceiver/factory.go] and of the
    [handlecount.Manager] interface, with the properties the design document
    states about them.

    Conventions.
    - A Go interface value is an [option]: [None] is the nil interface.
    - A Go pointer is an [option] as well: [None] is the nil pointer.
    - A Go function returning [(T, error)] returns a pair whose second
      component is an [option error]; [None] is the nil error.
    - Package-level variables and the flags of the libraries the file calls
      live in a [World] that every operation threads through; the calls that
      leave the file are appended to the world's [calls].
    - A run-time panic (failed type assertion, nil dereference) is an
      [Outcome] of its own: the function does not return. *)

From Stdlib Require Import ZArith Lia.
From stdpp Require Import base option list gmap strings.

Open Scope string_scope.
Open Scope list_scope.

(** ** Go's [time] package *)

Module time.
(** [type Duration int64], a count of nanoseconds. *)
Definition Duration : Type := Z.

Definition Nanosecond : Duration := 1%Z.
Definition Microsecond : Duration := (1000 * Nanosecond)%Z.
Definition Millisecond : Duration := (1000 * Microsecond)%Z.
Definition Second : Duration := (1000 * Millisecond)%Z.
Definition Minute : Duration := (60 * Second)%Z.

Definition minInt64 : Z := (- 2 ^ 63)%Z.
Definition maxInt64 : Z := (2 ^ 63 - 1)%Z.

(** A constant expression of type [Duration] must be representable. *)
Definition representable (d : Duration) : Prop :=
  (minInt64 <= d <= maxInt64)%Z.
End time.

(** ** Errors

    The two errors [createAddScraperOptions] builds with [fmt.Errorf] keep
    their format arguments; an error made elsewhere is an [errorString]. *)

Inductive error : Type :=
| errorString (msg : string)
  (** [fmt.Errorf("failed to create scraper for key %q: %w", key, err)] *)
| Errorf_failed_to_create_scraper (key : string) (err : error)
  (** [fmt.Errorf("host metrics scraper factory not found for key: %q", key)] *)
| Errorf_factory_not_found (key : string).

(** [errors.Unwrap]: only the [%w] verb wraps. *)
Definition Unwrap (e : error) : option error :=
  match e with
  | Errorf_failed_to_create_scraper _ err => Some err
  | _ => None
  end.

(** The key an error of this file is about. *)
Definition error_key (e : error) : option string :=
  match e with
  | Errorf_failed_to_create_scraper key _ => Some key
  | Errorf_factory_not_found key => Some key
  | errorString _ => None
  end.

(** ** Outcomes *)

Inductive Outcome (A : Type) : Type :=
| Returns (a : A)
| Panics (msg : string).
Arguments Returns {A} a.
Arguments Panics {A} msg.

(** ** Collaborators

    Types and functions of the packages [factory.go] imports. Their code is
    not part of the file; the development is parametric in them. *)

Class Collaborators : Type := {
  context_Context : Type;
  receiver_Settings : Type;
  (** [internal.Config], the configuration of one scraper *)
  internal_Config : Type;
  (** the non-nil values of the interface [scraper.Metrics] *)
  scraper_Metrics : Type;
  consumer_Metrics : Type;
  consumer_Logs : Type;
  scraperhelper_ControllerConfig : Type;
  scraperhelper_ScraperControllerOption : Type;
  (** the non-nil values of the interface [receiver.Metrics] *)
  receiver_Metrics : Type;
  component_Type : Type;
  metadata_Type : component_Type;
  scraperhelper_NewDefaultControllerConfig : scraperhelper_ControllerConfig;
  scraperhelper_AddScraper :
    component_Type -> option scraper_Metrics ->
    scraperhelper_ScraperControllerOption;
  scraperhelper_NewScraperControllerReceiver :
    scraperhelper_ControllerConfig -> receiver_Settings -> consumer_Metrics ->
    list scraperhelper_ScraperControllerOption ->
    option receiver_Metrics * option error;
}.

Section HostMetricsReceiver.
Context `{Collaborators}.

(** The interface [internal.ScraperFactory], as the methods of
    [loadscraper.Factory] show it. A method is taken by what it returns: a
    panic inside a factory (a scraper configuration of the wrong dynamic
    type, say) is not part of this model. *)
Record ScraperFactory : Type := {
  CreateDefaultConfig : internal_Config;
  CreateMetricsScraper :
    context_Context -> receiver_Settings -> internal_Config ->
    option scraper_Metrics * option error;
}.

(** [map[string]internal.ScraperFactory]: a present key may hold nil. *)
Definition Factories : Type := gmap string (option ScraperFactory).

(** The index expression [factories[key]]: the zero value (nil) for an
    absent key. *)
Definition index (factories : Factories) (key : string)
  : option ScraperFactory :=
  default None (factories !! key).

(** The receiver's [Config]: the fields [factory.go] reads or sets. *)
Record Config : Type := {
  ControllerConfig : scraperhelper_ControllerConfig;
  MetadataCollectionInterval : time.Duration;
  Scrapers : gmap string internal_Config;
}.

(** [component.Config] is [any]: the value is a [*Config] (possibly the nil
    pointer) or something else (another dynamic type, or the nil
    interface). *)
Inductive component_Config : Type :=
| PtrConfig (p : option Config)
| NotPtrConfig.

(** [hostEntitiesReceiver]: the fields the composite literal of
    [createLogsReceiver] sets. *)
Record hostEntitiesReceiver : Type := {
  cfg : option Config;
  nextLogs : consumer_Logs;
  settings : receiver_Settings;
}.

(** Calls that leave the file. *)
Inductive ExtCall : Type :=
| Call_CreateMetricsScraper (key : string)
| Call_host_EnableBootTimeCache (enable : bool)
| Call_process_EnableBootTimeCache (enable : bool)
| Call_NewScraperControllerReceiver
    (options : list scraperhelper_ScraperControllerOption).

Record World : Type := {
  (** the package variable [scraperFactories] *)
  scraperFactories : Factories;
  (** gopsutil's boot-time cache switches *)
  host_bootTimeCache : bool;
  process_bootTimeCache : bool;
  calls : list ExtCall;
}.

Definition M (A : Type) : Type := World -> Outcome A * World.

#[export] Instance M_ret : MRet M := fun A a w => (Returns a, w).

#[export] Instance M_bind : MBind M := fun A B k m w =>
  match m w with
  | (Returns a, w') => k a w'
  | (Panics msg, w') => (Panics msg, w')
  end.

Definition panic {A : Type} (msg : string) : M A :=
  fun w => (Panics msg, w).

Definition gets {A : Type} (f : World -> A) : M A :=
  fun w => (Returns (f w), w).

Definition record_call (c : ExtCall) : M unit := fun w =>
  (Returns tt,
   {| scraperFactories := scraperFactories w;
      host_bootTimeCache := host_bootTimeCache w;
      process_bootTimeCache := process_bootTimeCache w;
      calls := calls w ++ [c] |}).

(** [host.EnableBootTimeCache(enable)] *)
Definition host_EnableBootTimeCache (enable : bool) : M unit := fun w =>
  (Returns tt,
   {| scraperFactories := scraperFactories w;
      host_bootTimeCache := enable;
      process_bootTimeCache := process_bootTimeCache w;
      calls := calls w ++ [Call_host_EnableBootTimeCache enable] |}).

(** [process.EnableBootTimeCache(enable)] *)
Definition process_EnableBootTimeCache (enable : bool) : M unit := fun w =>
  (Returns tt,
   {| scraperFactories := scraperFactories w;
      host_bootTimeCache := host_bootTimeCache w;
      process_bootTimeCache := enable;
      calls := calls w ++ [Call_process_EnableBootTimeCache enable] |}).

(** The type assertion [cfg.( *Config )]. *)
Definition assert_PtrConfig (cfg : component_Config) : M (option Config) :=
  match cfg with
  | PtrConfig p => mret p
  | NotPtrConfig => panic "interface conversion: interface is not *Config"
  end.

(** Dereferencing a [*Config]. *)
Definition deref (p : option Config) : M Config :=
  match p with
  | Some c => mret c
  | None => panic "invalid memory address or nil pointer dereference"
  end.

Definition defaultMetadataCollectionInterval : time.Duration :=
  (5 * time.Minute)%Z.

Definition getScraperFactory (key : string)
  : M (option ScraperFactory * bool) :=
  factories ← gets scraperFactories;
  match factories !! key with
  | Some factory => mret (factory, true)
  | None => mret (None, false)
  end.

(** [createDefaultConfig]: the fields the literal leaves out are zero, so
    [Scrapers] is the nil map. *)
Definition createDefaultConfig : component_Config :=
  PtrConfig (Some
    {| ControllerConfig := scraperhelper_NewDefaultControllerConfig;
       MetadataCollectionInterval := defaultMetadataCollectionInterval;
       Scrapers := ∅ |}).

Definition createHostMetricsScraper
    (ctx : context_Context) (set : receiver_Settings) (key : string)
    (cfg : internal_Config) (factories : Factories)
  : M (option scraper_Metrics * bool * option error) :=
  match index factories key with
  | None => mret (None, false, None)
  | Some factory =>
      _ ← record_call (Call_CreateMetricsScraper key);
      let '(s, err) := CreateMetricsScraper factory ctx set cfg in
      mret (s, true, err)
  end.

(** The body of [for key, cfg := range config.Scrapers]. Go visits the
    entries of a map in an unspecified order: [visit] is the order of this
    execution, and [scraperControllerOptions] the slice built so far. A nil
    slice is the empty list. *)
Fixpoint range_Scrapers
    (ctx : context_Context) (set : receiver_Settings)
    (factories : Factories)
    (visit : list (string * internal_Config))
    (scraperControllerOptions : list scraperhelper_ScraperControllerOption)
  : M (list scraperhelper_ScraperControllerOption * option error) :=
  match visit with
  | [] => mret (scraperControllerOptions, None)
  | (key, cfg) :: rest =>
      r ← createHostMetricsScraper ctx set key cfg factories;
      let '(hostMetricsScraper, ok, err) :=
        (r : option scraper_Metrics * bool * option error) in
      match err with
      | Some e => mret ([], Some (Errorf_failed_to_create_scraper key e))
      | None =>
          if ok
          then range_Scrapers ctx set factories rest
                 (scraperControllerOptions ++
                  [scraperhelper_AddScraper metadata_Type hostMetricsScraper])
          else mret ([], Some (Errorf_factory_not_found key))
      end
  end.

(** [visit] stands for the order in which this execution of the range
    statement yields the entries of [config.Scrapers]. *)
Definition createAddScraperOptions
    (ctx : context_Context) (set : receiver_Settings)
    (config : option Config) (factories : Factories)
    (visit : list (string * internal_Config))
  : M (list scraperhelper_ScraperControllerOption * option error) :=
  _ ← deref config;
  range_Scrapers ctx set factories visit [].

Definition createMetricsReceiver
    (ctx : context_Context) (set : receiver_Settings)
    (cfg : component_Config) (consumer : consumer_Metrics)
    (visit : list (string * internal_Config))
  : M (option receiver_Metrics * option error) :=
  oCfg ← assert_PtrConfig cfg;
  factories ← gets scraperFactories;
  r ← createAddScraperOptions ctx set oCfg factories visit;
  let '(addScraperOptions, err) :=
    (r : list scraperhelper_ScraperControllerOption * option error) in
  match err with
  | Some e => mret (None, Some e)
  | None =>
      _ ← host_EnableBootTimeCache true;
      _ ← process_EnableBootTimeCache true;
      c ← deref oCfg;
      _ ← record_call (Call_NewScraperControllerReceiver addScraperOptions);
      mret (scraperhelper_NewScraperControllerReceiver
              (ControllerConfig c) set consumer addScraperOptions)
  end.

Definition createLogsReceiver
    (_ : context_Context) (set : receiver_Settings)
    (cfg : component_Config) (consumer : consumer_Logs)
  : M (option hostEntitiesReceiver * option error) :=
  p ← assert_PtrConfig cfg;
  mret (Some {| cfg := p; nextLogs := consumer; settings := set |}, None).

(** *** Vocabulary for the statements *)

(** The scraper a registered factory hands back for an entry. *)
Definition created (factories : Factories) (ctx : context_Context)
    (set : receiver_Settings) (entry : string * internal_Config)
  : option scraper_Metrics * option error :=
  match index factories entry.1 with
  | Some factory => CreateMetricsScraper factory ctx set entry.2
  | None => (None, None)
  end.

(** The entry's key has a factory and that factory creates its scraper
    without error. *)
Definition creates (factories : Factories) (ctx : context_Context)
    (set : receiver_Settings) (entry : string * internal_Config) : bool :=
  match index factories entry.1 with
  | Some factory =>
      match (CreateMetricsScraper factory ctx set entry.2).2 with
      | None => true
      | Some _ => false
      end
  | None => false
  end.

(** The options the loop has appended once it has passed [visit]. *)
Definition options_of (factories : Factories) (ctx : context_Context)
    (set : receiver_Settings) (visit : list (string * internal_Config))
  : list scraperhelper_ScraperControllerOption :=
  map (fun entry =>
         scraperhelper_AddScraper metadata_Type
           (created factories ctx set entry).1) visit.

(** The calls the loop makes while it passes [visit]. *)
Definition create_calls (visit : list (string * internal_Config))
  : list ExtCall :=
  map (fun entry => Call_CreateMetricsScraper entry.1) visit.

(** The error the loop returns at an entry it cannot create, and the call
    it makes there. *)
Definition stop_error (factories : Factories) (ctx : context_Context)
    (set : receiver_Settings) (entry : string * internal_Config) : error :=
  match index factories entry.1 with
  | None => Errorf_factory_not_found entry.1
  | Some factory =>
      match (CreateMetricsScraper factory ctx set entry.2).2 with
      | Some e => Errorf_failed_to_create_scraper entry.1 e
      | None => Errorf_factory_not_found entry.1
      end
  end.

Definition stop_calls (factories : Factories)
    (entry : string * internal_Config) : list ExtCall :=
  match index factories entry.1 with
  | None => []
  | Some _ => [Call_CreateMetricsScraper entry.1]
  end.

(** The world once both boot-time caches have been switched on. *)
Definition enabled (w : World) : World :=
  {| scraperFactories := scraperFactories w;
     host_bootTimeCache := true;
     process_bootTimeCache := true;
     calls := calls w |}.

(** [w'] comes after [w]: the registry is the same, no cache that was on
    has been switched off, and calls have only been added. *)
Definition follows (w w' : World) : Prop :=
  scraperFactories w' = scraperFactories w /\
  (host_bootTimeCache w = true -> host_bootTimeCache w' = true) /\
  (process_bootTimeCache w = true -> process_bootTimeCache w' = true) /\
  exists trace, calls w' = calls w ++ trace.

Definition is_create (c : ExtCall) : Prop :=
  exists key, c = Call_CreateMetricsScraper key.

(** The receiver has been built: a non-nil receiver and a nil error. *)
Definition constructed
    (out : Outcome (option receiver_Metrics * option error) * World) : Prop :=
  exists r, out.1 = Returns (Some r, None).

(** The world after [trace] more calls have left the file. *)
Definition after_calls (trace : list ExtCall) (w : World) : World :=
  {| scraperFactories := scraperFactories w;
     host_bootTimeCache := host_bootTimeCache w;
     process_bootTimeCache := process_bootTimeCache w;
     calls := calls w ++ trace |}.

Definition is_host_enable (c : ExtCall) : bool :=
  match c with Call_host_EnableBootTimeCache true => true | _ => false end.

Definition is_process_enable (c : ExtCall) : bool :=
  match c with Call_process_EnableBootTimeCache true => true | _ => false end.

Definition is_controller_call (c : ExtCall) : bool :=
  match c with Call_NewScraperControllerReceiver _ => true | _ => false end.

(** How many calls of [trace] satisfy [p]. *)
Definition count_calls (p : ExtCall -> bool) (trace : list ExtCall) : nat :=
  length (List.filter p trace).

(** *** Statements about receiver construction *)

(** Every configured key has a registered factory. *)
Definition keys_resolve (factories : Factories) (c : Config) : Prop :=
  forall key, is_Some (Scrapers c !! key) -> is_Some (index factories key).

(** Some configured key has no registered factory. *)
Definition key_missing (factories : Factories) (c : Config) : Prop :=
  exists key, is_Some (Scrapers c !! key) /\ index factories key = None.

(** "Receiver construction succeeds iff every key resolves in the
    Registry", for one execution. *)
Definition constructed_iff_keys_resolve (w : World) (ctx : context_Context)
    (set : receiver_Settings) (c : Config) (consumer : consumer_Metrics)
    (visit : list (string * internal_Config)) : Prop :=
  constructed
    (createMetricsReceiver ctx set (PtrConfig (Some c)) consumer visit w) <->
  keys_resolve (scraperFactories w) c.

(** What the code guarantees instead, for one execution:
    - the receiver is built exactly when every configured entry is created
      by its factory and the controller's constructor accepts the scrapers;
    - with a key that has no factory, an error about a configured key that
      could not be created comes back without a receiver, and nothing but
      scraper creations has been called;
    - if moreover no registered factory fails, the error is the one for a
      missing factory and names a key that has none. *)
Definition construction_law (w : World) (ctx : context_Context)
    (set : receiver_Settings) (c : Config) (consumer : consumer_Metrics)
    (visit : list (string * internal_Config)) : Prop :=
  let out :=
    createMetricsReceiver ctx set (PtrConfig (Some c)) consumer visit w in
  let factories := scraperFactories w in
  (constructed out <->
     (forall key cfg, Scrapers c !! key = Some cfg ->
                      creates factories ctx set (key, cfg) = true) /\
     exists r, scraperhelper_NewScraperControllerReceiver
                 (ControllerConfig c) set consumer
                 (options_of factories ctx set visit) = (Some r, None)) /\
  (key_missing factories c ->
     exists key e trace,
       out = (Returns (None, Some e), after_calls trace w) /\
       error_key e = Some key /\
       (exists cfg, Scrapers c !! key = Some cfg /\
                    creates factories ctx set (key, cfg) = false) /\
       Forall is_create trace) /\
  ((forall key cfg factory,
       Scrapers c !! key = Some cfg -> index factories key = Some factory ->
       (CreateMetricsScraper factory ctx set cfg).2 = None) ->
   key_missing factories c ->
     exists key,
       out.1 = Returns (None, Some (Errorf_factory_not_found key)) /\
       is_Some (Scrapers c !! key) /\ index factories key = None).

(** The functions of the file that run in a world, with their arguments. *)
Inductive Operation : Type :=
| Op_getScraperFactory (key : string)
| Op_createMetricsReceiver
    (ctx : context_Context) (set : receiver_Settings)
    (cfg : component_Config) (consumer : consumer_Metrics)
    (visit : list (string * internal_Config))
| Op_createLogsReceiver
    (ctx : context_Context) (set : receiver_Settings)
    (cfg : component_Config) (consumer : consumer_Logs)
| Op_createAddScraperOptions
    (ctx : context_Context) (set : receiver_Settings)
    (config : option Config) (factories : Factories)
    (visit : list (string * internal_Config))
| Op_createHostMetricsScraper
    (ctx : context_Context) (set : receiver_Settings) (key : string)
    (cfg : internal_Config) (factories : Factories).

(** The world an operation leaves behind. *)
Definition perform (w : World) (op : Operation) : World :=
  match op with
  | Op_getScraperFactory key => (getScraperFactory key w).2
  | Op_createMetricsReceiver ctx set cfg consumer visit =>
      (createMetricsReceiver ctx set cfg consumer visit w).2
  | Op_createLogsReceiver ctx set cfg consumer =>
      (createLogsReceiver ctx set cfg consumer w).2
  | Op_createAddScraperOptions ctx set config factories visit =>
      (createAddScraperOptions ctx set config factories visit w).2
  | Op_createHostMetricsScraper ctx set key cfg factories =>
      (createHostMetricsScraper ctx set key cfg factories w).2
  end.

Definition perform_all (ops : list Operation) (w : World) : World :=
  foldl perform w ops.

End HostMetricsReceiver.

(** ** The registry

    [scraperFactories] is initialised with a map literal of ten entries. Of the
    ten scraper packages only [loadscraper] is at hand: the type strings and
    factories of the others are taken as given. *)

Module loadscraper.
(** [TypeStr] the value of "type" key in configuration. *)
Definition TypeStr : string := "load".
End loadscraper.

Class ScraperPackages `{Collaborators} : Type := {
  cpuscraper_TypeStr : string;
  diskscraper_TypeStr : string;
  filesystemscraper_TypeStr : string;
  memoryscraper_TypeStr : string;
  networkscraper_TypeStr : string;
  pagingscraper_TypeStr : string;
  processesscraper_TypeStr : string;
  processscraper_TypeStr : string;
  systemscraper_TypeStr : string;
  cpuscraper_Factory : ScraperFactory;
  diskscraper_Factory : ScraperFactory;
  loadscraper_Factory : ScraperFactory;
  filesystemscraper_Factory : ScraperFactory;
  memoryscraper_Factory : ScraperFactory;
  networkscraper_Factory : ScraperFactory;
  pagingscraper_Factory : ScraperFactory;
  processesscraper_Factory : ScraperFactory;
  processscraper_Factory : ScraperFactory;
  systemscraper_Factory : ScraperFactory;
}.

Section Registry.
Context `{ScraperPackages}.

(** The entries of the literal, in the order they are written. (Go rejects
    a literal with two equal constant keys.) *)
Definition scraperFactories_entries : list (string * option ScraperFactory) :=
  [ (cpuscraper_TypeStr, Some cpuscraper_Factory);
    (diskscraper_TypeStr, Some diskscraper_Factory);
    (loadscraper.TypeStr, Some loadscraper_Factory);
    (filesystemscraper_TypeStr, Some filesystemscraper_Factory);
    (memoryscraper_TypeStr, Some memoryscraper_Factory);
    (networkscraper_TypeStr, Some networkscraper_Factory);
    (pagingscraper_TypeStr, Some pagingscraper_Factory);
    (processesscraper_TypeStr, Some processesscraper_Factory);
    (processscraper_TypeStr, Some processscraper_Factory);
    (systemscraper_TypeStr, Some systemscraper_Factory) ].

Definition scraperFactories_literal : Factories :=
  list_to_map scraperFactories_entries.

(** The world as the package is initialised: nothing has been called, and
    [flags] are the switches of gopsutil as they then are. *)
Definition initial_World (flags : bool * bool) : World :=
  {| scraperFactories := scraperFactories_literal;
     host_bootTimeCache := flags.1;
     process_bootTimeCache := flags.2;
     calls := [] |}.
End Registry.

(** ** Test doubles

    Stand-ins for the collaborators and for scraper factories, to run the
    definitions on concrete inputs. *)

Module doubles.
Definition collaborators : Collaborators :=
  {| context_Context := unit;
     receiver_Settings := unit;
     internal_Config := string;
     scraper_Metrics := string;
     consumer_Metrics := unit;
     consumer_Logs := unit;
     scraperhelper_ControllerConfig := unit;
     scraperhelper_ScraperControllerOption := option string;
     receiver_Metrics := list (option string);
     component_Type := string;
     metadata_Type := "hostmetrics";
     scraperhelper_NewDefaultControllerConfig := tt;
     scraperhelper_AddScraper := fun _ s => s;
     scraperhelper_NewScraperControllerReceiver :=
       fun _ _ _ options => (Some options, None) |}.

#[local] Existing Instance collaborators.

(** A factory whose scraper is always created. *)
Definition working (name : string) : ScraperFactory :=
  {| CreateDefaultConfig := "";
     CreateMetricsScraper := fun _ _ _ => (Some name, None) |}.

(** A factory whose [CreateMetricsScraper] returns an error. *)
Definition failing (msg : string) : ScraperFactory :=
  {| CreateDefaultConfig := "";
     CreateMetricsScraper := fun _ _ _ => (None, Some (errorString msg)) |}.

Definition world (factories : Factories) : World :=
  {| scraperFactories := factories;
     host_bootTimeCache := false;
     process_bootTimeCache := false;
     calls := [] |}.

Definition config (scrapers : gmap string string) : Config :=
  {| ControllerConfig := tt;
     MetadataCollectionInterval := defaultMetadataCollectionInterval;
     Scrapers := scrapers |}.

(** A registry with a working [load] factory only. *)
Definition load_only : Factories :=
  {[ "load" := Some (working "load") ]}.

(** A registry whose [process] factory cannot create its scraper. *)
Definition process_unsupported : Factories :=
  {[ "process" := Some (failing "process scraper not available") ]}.
End doubles.

(** ** Handle counts

    [handles.go] declares the interface only. *)

Module handlecount.

Inductive error : Type :=
| ErrNotFound (pid : Z)
| ErrQuery (msg : string).

(** [type Manager interface { Refresh() error;
    GetProcessHandleCount(pid int64) (uint32, error) }]. A manager is a
    value of the implementing type [T]; [Refresh] may update it and reads
    the operating system [OS]. *)
Class Manager (OS T : Type) : Type := {
  Refresh : OS -> T -> T * option error;
  GetProcessHandleCount : T -> Z -> Z * option error;
}.

(** The operating system's handle-count table at one moment, and whether
    reading it fails. *)
Record Host : Type := {
  handle_table : gmap Z Z;
  query_failure : option string;
}.

(** Modelled from the spec: the implementation of [Manager], which is not
    among the sources. "HandleCountState: per-process mapping from process
    identifier (PID) to last-known open-handle count; refreshed each
    collection tick and pruned of processes no longer present." *)
Definition HandleCountState : Type := gmap Z Z.

(** Modelled from the spec: the method [Refresh] of the implementation.
    "[refresh() -> error] re-reads the OS-wide handle-count table once per
    cycle." The document does not say what a failed refresh leaves behind;
    here it keeps the previous table. *)
Definition refresh (os : Host) (st : HandleCountState)
  : HandleCountState * option error :=
  match query_failure os with
  | Some msg => (st, Some (ErrQuery msg))
  | None => (handle_table os, None)
  end.

(** Modelled from the spec: the method [GetProcessHandleCount] of the
    implementation. "[getProcessHandleCount(pid) -> (count, error)] returns
    the most recent refreshed value for a given process id, failing with a
    not-found error" for a process the table does not hold. *)
Definition getProcessHandleCount (st : HandleCountState) (pid : Z)
  : Z * option error :=
  match st !! pid with
  | Some count => (count, None)
  | None => (0%Z, Some (ErrNotFound pid))
  end.

#[export] Instance spec_Manager : Manager Host HandleCountState :=
  {| Refresh := refresh; GetProcessHandleCount := getProcessHandleCount |}.

(** A process scraper's manager next to the operating system it reads. *)
Definition System : Type := Host * HandleCountState.

Definition system_Refresh (s : System) : System * option error :=
  let '(st, err) := Refresh s.1 s.2 in ((s.1, st), err).

(** The operating system's table changes; the manager is not told. *)
Definition os_changes (s : System) (os' : Host) : System := (os', s.2).

Definition system_GetProcessHandleCount (s : System) (pid : Z)
  : Z * option error :=
  GetProcessHandleCount s.2 pid.

End handlecount.

(** ** The scraper controller

    [createMetricsReceiver] hands the scrapers to
    [scraperhelper.NewScraperControllerReceiver]; the controller's own code is
    not among the sources. *)

Module controller.













(** *** Scheduling *)

(** What reaches the controller: a tick of its timer, the completion of
    the running round's barrier, or the running round being abandoned. *)
Inductive Signal : Type :=
| Tick
| BarrierDone
| Abandon.

(** What the controller did with a signal. *)
Inductive Action : Type :=
| StartRound (n : nat)
| SkipTick
| EndRound (n : nat)
| AbandonRound (n : nat).

Record Schedule : Type := {
  (** the rounds that are in their scrape phase *)
  scraping : list nat;
  (** the number the next round gets *)
  next_round : nat;
  history : list Action;
}.

Definition idle : Schedule :=
  {| scraping := []; next_round := 0; history := [] |}.

(** Modelled from the spec: the controller's reaction to its timer, whose
    code is not among the sources. "Scheduling: single recurring timer;
    each tick triggers one collection round. If the previous round has not
    completed by the next tick, policy is to skip the overlapping tick."
    A completion or abandonment signal that finds no round running is
    dropped. *)
Definition react (s : Schedule) (sig : Signal) : Schedule :=
  match sig, scraping s with
  | Tick, [] =>
      {| scraping := [next_round s];
         next_round := S (next_round s);
         history := history s ++ [StartRound (next_round s)] |}
  | Tick, _ :: _ =>
      {| scraping := scraping s;
         next_round := next_round s;
         history := history s ++ [SkipTick] |}
  | BarrierDone, n :: rest =>
      {| scraping := rest;
         next_round := next_round s;
         history := history s ++ [EndRound n] |}
  | Abandon, n :: rest =>
      {| scraping := rest;
         next_round := next_round s;
         history := history s ++ [AbandonRound n] |}
  | BarrierDone, [] => s
  | Abandon, [] => s
  end.

Definition run (signals : list Signal) : Schedule :=
  foldl react idle signals.

(** Reading a history back: [replay running next h] is the round left
    running and the next round number after [h], if [h] is sequential from
    a moment where [running] was in its scrape phase: a round starts only
    when none is running and carries the next number, a tick is skipped
    only while one is running, and only the running round ends or is
    abandoned. *)
Fixpoint replay (running : option nat) (next : nat) (h : list Action)
  : option (option nat * nat) :=
  match h with
  | [] => Some (running, next)
  | StartRound n :: h' =>
      match running with
      | None => if Nat.eqb n next then replay (Some n) (S next) h' else None
      | Some _ => None
      end
  | SkipTick :: h' =>
      match running with
      | Some _ => replay running next h'
      | None => None
      end
  | EndRound n :: h' | AbandonRound n :: h' =>
      match running with
      | Some m => if Nat.eqb n m then replay None next h' else None
      | None => None
      end
  end.

Definition sequential (h : list Action) : Prop :=
  is_Some (replay None 0 h).

(** The controller is idle, or runs exactly one round; either way its
    history is sequential and ends where the controller stands. *)
Definition coherent (s : Schedule) : Prop :=
  (scraping s = [] /\
   replay None 0 (history s) = Some (None, next_round s)) \/
  (exists n, scraping s = [n] /\
             replay None 0 (history s) = Some (Some n, next_round s)).



End controller.

(** ** What the receiver's construction computes

    The loop of [createAddScraperOptions] read as a function of the visit:
    it is decided by the first entry, in the order of the visit, that is not
    created. *)

Section Outline.
Context `{Collaborators}.

(** The first entry of the visit that is not created, if there is one. *)
Definition first_uncreated (factories : Factories) (ctx : context_Context)
    (set : receiver_Settings) (visit : list (string * internal_Config))
  : option (string * internal_Config) :=
  List.find (fun entry => negb (creates factories ctx set entry)) visit.

(** The calls of [CreateMetricsScraper] up to the entry where the loop
    stops: that entry's factory is still called when there is one. *)
Fixpoint creation_calls (factories : Factories) (ctx : context_Context)
    (set : receiver_Settings) (visit : list (string * internal_Config))
  : list ExtCall :=
  match visit with
  | [] => []
  | entry :: rest =>
      if creates factories ctx set entry
      then Call_CreateMetricsScraper entry.1 ::
           creation_calls factories ctx set rest
      else stop_calls factories entry
  end.

Definition addScraperOptions_result (factories : Factories)
    (ctx : context_Context) (set : receiver_Settings)
    (visit : list (string * internal_Config))
  : list scraperhelper_ScraperControllerOption * option error :=
  match first_uncreated factories ctx set visit with
  | None => (options_of factories ctx set visit, None)
  | Some entry => ([], Some (stop_error factories ctx set entry))
  end.

Definition metricsReceiver_result (factories : Factories)
    (ctx : context_Context) (set : receiver_Settings) (c : Config)
    (consumer : consumer_Metrics) (visit : list (string * internal_Config))
  : option receiver_Metrics * option error :=
  match first_uncreated factories ctx set visit with
  | None =>
      scraperhelper_NewScraperControllerReceiver (ControllerConfig c) set
        consumer (options_of factories ctx set visit)
  | Some entry => (None, Some (stop_error factories ctx set entry))
  end.

(** The calls [createMetricsReceiver] makes besides the creations. *)
Definition startup_calls (factories : Factories) (ctx : context_Context)
    (set : receiver_Settings) (visit : list (string * internal_Config))
  : list ExtCall :=
  match first_uncreated factories ctx set visit with
  | None =>
      [Call_host_EnableBootTimeCache true;
       Call_process_EnableBootTimeCache true;
       Call_NewScraperControllerReceiver (options_of factories ctx set visit)]
  | Some _ => []
  end.

(** The answers of the two lookups of the file for one key: the flag of
    [getScraperFactory] and the flag of [createHostMetricsScraper] on the
    registry of the world. *)
Definition found (w : World) (key : string) : Prop :=
  exists factory, (getScraperFactory key w).1 = Returns (factory, true).

Definition ok (w : World) (ctx : context_Context) (set : receiver_Settings)
    (key : string) (cfg : internal_Config) : Prop :=
  exists s err,
    (createHostMetricsScraper ctx set key cfg (scraperFactories w) w).1 =
    Returns (s, true, err).

End Outline.

Module fixtures.
#[local] Existing Instance doubles.collaborators.

(** Scraper packages with ten different type strings, each with a working
    factory. Only [loadscraper.TypeStr] is known; the other names are made
    up after their packages. *)
Definition packages : ScraperPackages :=
  {| cpuscraper_TypeStr := "cpu";
     diskscraper_TypeStr := "disk";
     filesystemscraper_TypeStr := "filesystem";
     memoryscraper_TypeStr := "memory";
     networkscraper_TypeStr := "network";
     pagingscraper_TypeStr := "paging";
     processesscraper_TypeStr := "processes";
     processscraper_TypeStr := "process";
     systemscraper_TypeStr := "system";
     cpuscraper_Factory := doubles.working "cpu";
     diskscraper_Factory := doubles.working "disk";
     loadscraper_Factory := doubles.working "load";
     filesystemscraper_Factory := doubles.working "filesystem";
     memoryscraper_Factory := doubles.working "memory";
     networkscraper_Factory := doubles.working "network";
     pagingscraper_Factory := doubles.working "paging";
     processesscraper_Factory := doubles.working "processes";
     processscraper_Factory := doubles.working "process";
     systemscraper_Factory := doubles.working "system" |}.

(** A registry with a working [load] factory and a [process] factory that
    fails. *)
Definition load_and_process : Factories :=
  {[ "load" := Some (doubles.working "load");
     "process" := Some (doubles.failing "process scraper not available") ]}.

(** A registry whose [load] key holds the nil factory. *)
Definition nil_load : Factories := {[ "load" := None ]}.
End fixtures.

(** * Properties *)

(** ** The loop of [createAddScraperOptions] *)

Section Loop.
Context `{Collaborators}.

Lemma after_calls_nil (w : World) : after_calls [] w = w.
Proof. destruct w; unfold after_calls; simpl. by rewrite app_nil_r. Qed.

Lemma after_calls_app (t1 t2 : list ExtCall) (w : World) :
  after_calls t2 (after_calls t1 w) = after_calls (t1 ++ t2) w.
Proof. unfold after_calls; simpl. by rewrite app_assoc. Qed.

Lemma record_call_eq (c : ExtCall) (w : World) :
  record_call c w = (Returns tt, after_calls [c] w).
Proof. reflexivity. Qed.

(** [createHostMetricsScraper], case by case. *)
Lemma createHostMetricsScraper_eq ctx set key cfg factories (w : World) :
  createHostMetricsScraper ctx set key cfg factories w =
  match index factories key with
  | None => (Returns (None, false, None), w)
  | Some factory =>
      (Returns ((CreateMetricsScraper factory ctx set cfg).1, true,
                (CreateMetricsScraper factory ctx set cfg).2),
       after_calls [Call_CreateMetricsScraper key] w)
  end.
Proof.
  unfold createHostMetricsScraper.
  destruct (index factories key) as [factory|]; [|reflexivity].
  unfold mbind, M_bind. rewrite record_call_eq.
  by destruct (CreateMetricsScraper factory ctx set cfg).
Qed.

(** One turn of the loop. *)
Lemma range_Scrapers_cons ctx set factories key cfg rest acc (w : World) :
  range_Scrapers ctx set factories ((key, cfg) :: rest) acc w =
  match index factories key with
  | None => (Returns ([], Some (Errorf_factory_not_found key)), w)
  | Some factory =>
      match (CreateMetricsScraper factory ctx set cfg).2 with
      | Some e =>
          (Returns ([], Some (Errorf_failed_to_create_scraper key e)),
           after_calls [Call_CreateMetricsScraper key] w)
      | None =>
          range_Scrapers ctx set factories rest
            (acc ++ [scraperhelper_AddScraper metadata_Type
                       (CreateMetricsScraper factory ctx set cfg).1])
            (after_calls [Call_CreateMetricsScraper key] w)
      end
  end.
Proof.
  cbn [range_Scrapers]. unfold mbind at 1, M_bind at 1.
  rewrite createHostMetricsScraper_eq.
  destruct (index factories key) as [factory|]; [|reflexivity].
  by destruct (CreateMetricsScraper factory ctx set cfg) as [s [e|]].
Qed.

(** While every entry is created the loop goes on, appending one option
    and recording one call per entry. *)
Lemma range_Scrapers_app ctx set factories pre post acc (w : World) :
  forallb (creates factories ctx set) pre = true ->
  range_Scrapers ctx set factories (pre ++ post) acc w =
  range_Scrapers ctx set factories post
    (acc ++ options_of factories ctx set pre)
    (after_calls (create_calls pre) w).
Proof.
  revert acc w. induction pre as [|[key cfg] pre IH]; intros acc w Hpre.
  - simpl. by rewrite app_nil_r, after_calls_nil.
  - simpl in Hpre. apply andb_prop in Hpre as [Hentry Hpre].
    rewrite <- app_comm_cons, range_Scrapers_cons.
    unfold creates in Hentry; simpl in Hentry.
    unfold options_of, created; simpl.
    destruct (index factories key) as [factory|]; [|done].
    destruct ((CreateMetricsScraper factory ctx set cfg).2); [done|].
    rewrite (IH _ _ Hpre), after_calls_app, <- app_assoc. reflexivity.
Qed.

Lemma range_Scrapers_all_created ctx set factories visit acc (w : World) :
  forallb (creates factories ctx set) visit = true ->
  range_Scrapers ctx set factories visit acc w =
  (Returns (acc ++ options_of factories ctx set visit, None),
   after_calls (create_calls visit) w).
Proof.
  intros Hall.
  rewrite <- (app_nil_r visit) at 1.
  by rewrite (range_Scrapers_app _ _ _ _ _ _ _ Hall).
Qed.

(** The loop stops at the first entry that is not created. *)
Lemma range_Scrapers_stops ctx set factories pre entry post acc (w : World) :
  forallb (creates factories ctx set) pre = true ->
  creates factories ctx set entry = false ->
  range_Scrapers ctx set factories (pre ++ entry :: post) acc w =
  (Returns ([], Some (stop_error factories ctx set entry)),
   after_calls (create_calls pre ++ stop_calls factories entry) w).
Proof.
  intros Hpre Hentry. rewrite (range_Scrapers_app _ _ _ _ _ _ _ Hpre).
  destruct entry as [key cfg]. rewrite range_Scrapers_cons.
  unfold creates in Hentry. unfold stop_error, stop_calls. simpl in *.
  destruct (index factories key) as [factory|].
  - destruct ((CreateMetricsScraper factory ctx set cfg).2); [|done].
    by rewrite after_calls_app.
  - by rewrite app_nil_r.
Qed.

(** Every visit either creates all its entries or has a first entry that
    is not created. *)
Lemma first_not_created factories ctx set
    (visit : list (string * internal_Config)) :
  forallb (creates factories ctx set) visit = false ->
  exists pre entry post,
    visit = pre ++ entry :: post /\
    forallb (creates factories ctx set) pre = true /\
    creates factories ctx set entry = false.
Proof.
  induction visit as [|entry visit IH]; [done|]. simpl.
  destruct (creates factories ctx set entry) eqn:Hentry; simpl.
  - intros Hrest. destruct (IH Hrest) as (pre & bad & post & -> & Hpre & Hbad).
    exists (entry :: pre), bad, post. simpl. by rewrite Hentry, Hpre.
  - intros _. by exists [], entry, visit.
Qed.

Lemma createAddScraperOptions_eq ctx set c factories visit (w : World) :
  createAddScraperOptions ctx set (Some c) factories visit w =
  range_Scrapers ctx set factories visit [] w.
Proof. reflexivity. Qed.

End Loop.

(** ** The functions of [factory.go] *)

Section Factory.
Context `{Collaborators}.

Lemma follows_refl (w : World) : follows w w.
Proof. repeat split; try done. exists []. by rewrite app_nil_r. Qed.

Lemma follows_trans (w1 w2 w3 : World) :
  follows w1 w2 -> follows w2 w3 -> follows w1 w3.
Proof.
  intros (Hr & Hh & Hp & t & Ht) (Hr' & Hh' & Hp' & t' & Ht').
  repeat split; [congruence | tauto | tauto |].
  exists (t ++ t'). by rewrite Ht', Ht, app_assoc.
Qed.

Lemma follows_after_calls (trace : list ExtCall) (w : World) :
  follows w (after_calls trace w).
Proof. repeat split; try done. by exists trace. Qed.

Lemma follows_enabled (w : World) : follows w (enabled w).
Proof. repeat split; try done. exists []. simpl. by rewrite app_nil_r. Qed.

Lemma createHostMetricsScraper_follows ctx set key cfg factories (w : World) :
  follows w (createHostMetricsScraper ctx set key cfg factories w).2.
Proof.
  rewrite createHostMetricsScraper_eq.
  destruct (index factories key); simpl;
    [apply follows_after_calls | apply follows_refl].
Qed.

Lemma range_Scrapers_follows ctx set factories visit acc (w : World) :
  follows w (range_Scrapers ctx set factories visit acc w).2.
Proof.
  revert acc w. induction visit as [|[key cfg] rest IH]; intros acc w.
  - apply follows_refl.
  - rewrite range_Scrapers_cons.
    destruct (index factories key) as [factory|]; [|apply follows_refl].
    destruct ((CreateMetricsScraper factory ctx set cfg).2).
    + apply follows_after_calls.
    + eapply follows_trans; [apply follows_after_calls | apply IH].
Qed.

Lemma createAddScraperOptions_follows ctx set config factories visit
    (w : World) :
  follows w (createAddScraperOptions ctx set config factories visit w).2.
Proof.
  destruct config as [c|]; [apply range_Scrapers_follows | apply follows_refl].
Qed.

(** [createMetricsReceiver] on a [*Config] that is not nil, by the result of
    the loop. *)
Lemma createMetricsReceiver_eq ctx set c consumer visit (w : World) :
  createMetricsReceiver ctx set (PtrConfig (Some c)) consumer visit w =
  match range_Scrapers ctx set (scraperFactories w) visit [] w with
  | (Returns (options, None), w1) =>
      (Returns (scraperhelper_NewScraperControllerReceiver
                  (ControllerConfig c) set consumer options),
       after_calls [Call_host_EnableBootTimeCache true;
                    Call_process_EnableBootTimeCache true;
                    Call_NewScraperControllerReceiver options] (enabled w1))
  | (Returns (_, Some e), w1) => (Returns (None, Some e), w1)
  | (Panics msg, w1) => (Panics msg, w1)
  end.
Proof.
  unfold createMetricsReceiver, createAddScraperOptions.
  unfold assert_PtrConfig, deref, gets, mbind, mret, M_bind, M_ret.
  destruct (range_Scrapers _ _ _ _ _ _) as [[[options [e|]]|msg] w1];
    try reflexivity.
  unfold host_EnableBootTimeCache, process_EnableBootTimeCache, record_call,
    after_calls, enabled; simpl.
  by rewrite <- !app_assoc.
Qed.

Lemma createMetricsReceiver_follows ctx set cfg consumer visit (w : World) :
  follows w (createMetricsReceiver ctx set cfg consumer visit w).2.
Proof.
  destruct cfg as [[c|]|]; try apply follows_refl.
  rewrite createMetricsReceiver_eq.
  pose proof (range_Scrapers_follows ctx set (scraperFactories w) visit [] w)
    as Hloop.
  destruct (range_Scrapers _ _ _ _ _ _) as [[[options [e|]]|msg] w1];
    simpl in *; try done.
  eapply follows_trans; [exact Hloop|].
  eapply follows_trans; [apply follows_enabled | apply follows_after_calls].
Qed.

Lemma getScraperFactory_eq (key : string) (w : World) :
  getScraperFactory key w =
  (Returns match scraperFactories w !! key with
           | Some factory => (factory, true)
           | None => (None, false)
           end, w).
Proof.
  unfold getScraperFactory, gets, mbind, M_bind.
  by destruct (scraperFactories w !! key).
Qed.

Lemma perform_follows (op : Operation) (w : World) : follows w (perform w op).
Proof.
  destruct op; simpl.
  - rewrite getScraperFactory_eq. apply follows_refl.
  - apply createMetricsReceiver_follows.
  - destruct cfg0; apply follows_refl.
  - apply createAddScraperOptions_follows.
  - apply createHostMetricsScraper_follows.
Qed.

Lemma perform_all_follows (ops : list Operation) (w : World) :
  follows w (perform_all ops w).
Proof.
  revert w. induction ops as [|op ops IH]; intros w.
  - apply follows_refl.
  - eapply follows_trans; [apply perform_follows | apply IH].
Qed.

End Factory.

(** ** Receiver construction *)

Section Construction.
Context `{Collaborators}.

Lemma create_calls_are_creations (visit : list (string * internal_Config)) :
  Forall is_create (create_calls visit).
Proof.
  unfold create_calls. apply Forall_forall. intros call Hcall.
  apply list_elem_of_fmap in Hcall as (entry & -> & _). by exists entry.1.
Qed.

Lemma stop_calls_are_creations factories (entry : string * internal_Config) :
  Forall is_create (stop_calls factories entry).
Proof.
  unfold stop_calls. destruct (index factories entry.1); [|constructor].
  repeat constructor. by exists entry.1.
Qed.

Lemma visit_entries (c : Config) (visit : list (string * internal_Config)) :
  visit ≡ₚ map_to_list (Scrapers c) ->
  forall key cfg, (key, cfg) ∈ visit <-> Scrapers c !! key = Some cfg.
Proof.
  intros Hvisit key cfg. rewrite Hvisit. apply elem_of_map_to_list.
Qed.

(** C1, as the code has it. For every world, configuration and order in
    which the range statement visits [config.Scrapers]: the receiver is built
    if and only if every configured entry has a factory whose
    [CreateMetricsScraper] returns no error and
    [NewScraperControllerReceiver] returns a receiver for the scrapers; if a
    configured key has no factory, [createMetricsReceiver] returns a nil
    receiver and an error naming a configured key that could not be created,
    having called nothing but scraper creations (no cache switch, no
    controller); and if no registered factory fails, that error is "factory
    not found" for a key without a factory. *)
Theorem createMetricsReceiver_construction (w : World) ctx set (c : Config)
    consumer (visit : list (string * internal_Config)) :
  visit ≡ₚ map_to_list (Scrapers c) ->
  construction_law w ctx set c consumer visit.
Proof.
  intros Hvisit. pose proof (visit_entries c visit Hvisit) as Hin.
  unfold construction_law. cbv zeta. rewrite createMetricsReceiver_eq.
  set (factories := scraperFactories w).
  destruct (forallb (creates factories ctx set) visit) eqn:Hall.
  - rewrite (range_Scrapers_all_created _ _ _ _ _ _ Hall). simpl.
    assert (Hcreated : forall key cfg, Scrapers c !! key = Some cfg ->
                         creates factories ctx set (key, cfg) = true).
    { intros key cfg Hk. rewrite forallb_forall in Hall.
      apply Hall, list_elem_of_In, Hin, Hk. }
    assert (Hnone : ~ key_missing factories c).
    { intros (key & [cfg Hcfg] & Hmiss).
      specialize (Hcreated key cfg Hcfg). unfold creates in Hcreated.
      simpl in Hcreated. by rewrite Hmiss in Hcreated. }
    split; [|split]; [|done|done].
    unfold constructed; simpl. split.
    + intros [r Hr]. split; [done|]. exists r. congruence.
    + intros [_ [r Hr]]. exists r. by rewrite Hr.
  - destruct (first_not_created _ _ _ _ Hall)
      as (pre & entry & post & -> & Hpre & Hbad).
    rewrite (range_Scrapers_stops _ _ _ _ _ _ _ _ Hpre Hbad). simpl.
    assert (Hentry : Scrapers c !! entry.1 = Some entry.2).
    { apply Hin. destruct entry. simpl. apply elem_of_app. right. left. }
    split; [|split].
    + unfold constructed; simpl. split; [by intros [r Hr]|].
      intros [Hc _]. specialize (Hc _ _ Hentry).
      destruct entry; simpl in *; congruence.
    + intros _.
      exists entry.1, (stop_error factories ctx set entry),
        (create_calls pre ++ stop_calls factories entry).
      split; [reflexivity|]. split.
      { unfold stop_error. destruct (index factories entry.1); [|done].
        by destruct ((CreateMetricsScraper _ _ _ _).2). }
      split.
      { exists entry.2. split; [done|]. by destruct entry. }
      apply Forall_app. split;
        [apply create_calls_are_creations | apply stop_calls_are_creations].
    + intros Hok _. exists entry.1. unfold stop_error.
      destruct (index factories entry.1) as [factory|] eqn:Hidx.
      { specialize (Hok _ _ _ Hentry Hidx). unfold creates in Hbad.
        by rewrite Hidx, Hok in Hbad. }
      split; [done|]. split; [by eexists | done].
Qed.

End Construction.

(** The theorem at work: a registry with a working [load] factory and a
    configuration with the [load] scraper only. *)
Lemma createMetricsReceiver_construction_witness :
  [("load", "")] ≡ₚ
    map_to_list (@Scrapers doubles.collaborators
                   (doubles.config {[ "load" := "" ]})) /\
  @construction_law doubles.collaborators (doubles.world doubles.load_only)
    tt tt (doubles.config {[ "load" := "" ]}) tt [("load", "")].
Proof.
  assert (Hvisit : [("load", "")] ≡ₚ
            map_to_list (@Scrapers doubles.collaborators
                           (doubles.config {[ "load" := "" ]}))).
  { simpl. by rewrite map_to_list_singleton. }
  split; [exact Hvisit|].
  exact (@createMetricsReceiver_construction doubles.collaborators
           (doubles.world doubles.load_only) tt tt
           (doubles.config {[ "load" := "" ]}) tt [("load", "")] Hvisit).
Defined.

(** C1 as stated fails: the only configured key, [process], resolves in the
    registry, yet no receiver is built, because the factory's
    [CreateMetricsScraper] returns an error. *)
Lemma keys_resolve_but_no_receiver :
  ~ @constructed_iff_keys_resolve doubles.collaborators
      (doubles.world doubles.process_unsupported) tt tt
      (doubles.config {[ "process" := "" ]}) tt [("process", "")].
Proof.
  unfold constructed_iff_keys_resolve. intros [_ Hiff].
  assert (Hkeys : @keys_resolve doubles.collaborators
                    doubles.process_unsupported
                    (doubles.config {[ "process" := "" ]})).
  { intros key [cfg Hcfg]. simpl in Hcfg.
    apply lookup_singleton_Some in Hcfg as [<- _].
    by eexists. }
  destruct (Hiff Hkeys) as [r Hr]. vm_compute in Hr. discriminate Hr.
Qed.

(** With one key whose factory fails and one key without a factory, the
    error depends on the order of the visit: it names the missing key only
    when the range statement reaches that key first. *)
Example missing_key_error_depends_on_order :
  let w := doubles.world doubles.process_unsupported in
  let c := doubles.config {[ "process" := ""; "zfs" := "" ]} in
  (@createMetricsReceiver doubles.collaborators tt tt (PtrConfig (Some c)) tt
     [("process", ""); ("zfs", "")] w).1 =
    Returns (None, Some (Errorf_failed_to_create_scraper "process"
                           (errorString "process scraper not available"))) /\
  (@createMetricsReceiver doubles.collaborators tt tt (PtrConfig (Some c)) tt
     [("zfs", ""); ("process", "")] w).1 =
    Returns (None, Some (Errorf_factory_not_found "zfs")).
Proof. split; vm_compute; reflexivity. Qed.

(** ** Creation failures and missing factories *)

Section Creation.
Context `{Collaborators}.

Lemma stop_error_not_found factories ctx set
    (entry : string * internal_Config) (key : string) :
  creates factories ctx set entry = false ->
  stop_error factories ctx set entry = Errorf_factory_not_found key ->
  key = entry.1 /\ index factories key = None.
Proof.
  unfold creates, stop_error.
  destruct (index factories entry.1) as [factory|] eqn:Hidx.
  - destruct ((CreateMetricsScraper factory ctx set entry.2).2); [|done].
    discriminate.
  - intros _ [= <-]. done.
Qed.

(** "Factory not found" is only ever said of a visited key without a
    factory. *)
Lemma not_found_means_no_factory ctx set config factories visit (w : World)
    options key :
  (createAddScraperOptions ctx set config factories visit w).1 =
    Returns (options, Some (Errorf_factory_not_found key)) ->
  index factories key = None /\ key ∈ visit.*1.
Proof.
  destruct config as [c|]; [|discriminate].
  rewrite createAddScraperOptions_eq.
  destruct (forallb (creates factories ctx set) visit) eqn:Hall.
  - by rewrite (range_Scrapers_all_created _ _ _ _ _ _ Hall).
  - destruct (first_not_created _ _ _ _ Hall)
      as (pre & entry & post & -> & Hpre & Hbad).
    rewrite (range_Scrapers_stops _ _ _ _ _ _ _ _ Hpre Hbad). simpl.
    intros [= _ Herr].
    destruct (stop_error_not_found _ _ _ _ _ Hbad Herr) as [-> Hidx].
    split; [done|]. rewrite fmap_app, fmap_cons.
    apply elem_of_app. right. left.
Qed.

(** C9. [createHostMetricsScraper] answers [ok = false] (with a nil scraper
    and a nil error) exactly when [factories[key]] is nil; with a factory it
    answers [ok = true] and whatever [CreateMetricsScraper] returned, error
    included. So when the loop of [createAddScraperOptions] reaches a key
    whose factory fails with [e], the result is the error "failed to create
    scraper for key" about that key, wrapping [e]; and "factory not found"
    is returned only about a visited key for which [factories[key]] is
    nil. *)
Theorem creation_failure_is_not_factory_not_found ctx set
    (factories : Factories) (w : World) :
  (forall key cfg,
     createHostMetricsScraper ctx set key cfg factories w =
     match index factories key with
     | None => (Returns (None, false, None), w)
     | Some factory =>
         (Returns ((CreateMetricsScraper factory ctx set cfg).1, true,
                   (CreateMetricsScraper factory ctx set cfg).2),
          after_calls [Call_CreateMetricsScraper key] w)
     end) /\
  (forall key cfg s err w',
     createHostMetricsScraper ctx set key cfg factories w =
       (Returns (s, false, err), w') ->
     index factories key = None) /\
  (forall c pre key cfg post factory e,
     forallb (creates factories ctx set) pre = true ->
     index factories key = Some factory ->
     (CreateMetricsScraper factory ctx set cfg).2 = Some e ->
     createAddScraperOptions ctx set (Some c) factories
       (pre ++ (key, cfg) :: post) w =
       (Returns ([], Some (Errorf_failed_to_create_scraper key e)),
        after_calls (create_calls pre ++ [Call_CreateMetricsScraper key]) w) /\
     Unwrap (Errorf_failed_to_create_scraper key e) = Some e) /\
  (forall config visit options key,
     (createAddScraperOptions ctx set config factories visit w).1 =
       Returns (options, Some (Errorf_factory_not_found key)) ->
     index factories key = None /\ key ∈ visit.*1).
Proof.
  split; [|split; [|split]].
  - intros key cfg. apply createHostMetricsScraper_eq.
  - intros key cfg s err w'. rewrite createHostMetricsScraper_eq.
    by destruct (index factories key).
  - intros c pre key cfg post factory e Hpre Hidx He. split; [|done].
    rewrite createAddScraperOptions_eq.
    assert (Hbad : creates factories ctx set (key, cfg) = false).
    { unfold creates. simpl. by rewrite Hidx, He. }
    rewrite (range_Scrapers_stops _ _ _ _ _ _ _ _ Hpre Hbad).
    unfold stop_error, stop_calls. simpl. by rewrite Hidx, He.
  - intros config visit options key.
    apply not_found_means_no_factory.
Qed.

End Creation.

(** The theorem at work: the [process] factory is registered and fails, and
    the loop reports the failure under that key. *)
Lemma creation_failure_is_not_factory_not_found_witness :
  (@createAddScraperOptions doubles.collaborators tt tt
     (Some (doubles.config {[ "process" := "" ]}))
     doubles.process_unsupported [("process", "")]
     (doubles.world doubles.process_unsupported)).1 =
  Returns ([], Some (Errorf_failed_to_create_scraper "process"
                       (errorString "process scraper not available"))).
Proof.
  pose proof (@creation_failure_is_not_factory_not_found
                doubles.collaborators tt tt doubles.process_unsupported
                (doubles.world doubles.process_unsupported))
    as (_ & _ & Hfails & _).
  destruct (Hfails (doubles.config {[ "process" := "" ]}) [] "process" ""
              [] (doubles.failing "process scraper not available")
              (errorString "process scraper not available")
              eq_refl eq_refl eq_refl) as [Hrun _].
  simpl app in Hrun. rewrite Hrun. reflexivity.
Defined.

(** ** The boot-time caches *)

Section BootTimeCache.
Context `{Collaborators}.

Lemma count_calls_app (p : ExtCall -> bool) (t1 t2 : list ExtCall) :
  count_calls p (t1 ++ t2) = count_calls p t1 + count_calls p t2.
Proof. unfold count_calls. by rewrite List.filter_app, length_app. Qed.

Lemma count_calls_creations (p : ExtCall -> bool)
    (visit : list (string * internal_Config)) :
  (forall key, p (Call_CreateMetricsScraper key) = false) ->
  count_calls p (create_calls visit) = 0.
Proof.
  intros Hp. unfold count_calls, create_calls.
  induction visit as [|entry visit IH]; [done|]. simpl. by rewrite Hp.
Qed.

(** The loop returns a nil error only after it has created every entry. *)
Lemma createAddScraperOptions_success ctx set c factories visit (w w1 : World)
    options :
  createAddScraperOptions ctx set (Some c) factories visit w =
    (Returns (options, None), w1) ->
  options = options_of factories ctx set visit /\
  w1 = after_calls (create_calls visit) w.
Proof.
  rewrite createAddScraperOptions_eq.
  destruct (forallb (creates factories ctx set) visit) eqn:Hall.
  - rewrite (range_Scrapers_all_created _ _ _ _ _ _ Hall). by intros [= <- <-].
  - destruct (first_not_created _ _ _ _ Hall)
      as (pre & entry & post & -> & Hpre & Hbad).
    by rewrite (range_Scrapers_stops _ _ _ _ _ _ _ _ Hpre Hbad).
Qed.

(** C5. Whenever the scrapers of a configuration have been created,
    whatever their number, [createMetricsReceiver] goes on to call
    [host.EnableBootTimeCache(true)] once and
    [process.EnableBootTimeCache(true)] once, after the creations and before
    it asks for the controller, which is the only thing that starts
    scrapers; both caches are then on, and they stay on through any further
    calls of the functions of the file (switching on again changes
    nothing). *)
Theorem boot_time_cache_enabled_once (w w1 : World) ctx set (c : Config)
    consumer (visit : list (string * internal_Config)) options :
  createAddScraperOptions ctx set (Some c) (scraperFactories w) visit w =
    (Returns (options, None), w1) ->
  let out :=
    createMetricsReceiver ctx set (PtrConfig (Some c)) consumer visit w in
  let added :=
    create_calls visit ++
    [Call_host_EnableBootTimeCache true;
     Call_process_EnableBootTimeCache true;
     Call_NewScraperControllerReceiver options] in
  out.1 = Returns (scraperhelper_NewScraperControllerReceiver
                     (ControllerConfig c) set consumer options) /\
  calls out.2 = calls w ++ added /\
  count_calls is_host_enable added = 1 /\
  count_calls is_process_enable added = 1 /\
  count_calls is_controller_call (create_calls visit) = 0 /\
  host_bootTimeCache out.2 = true /\
  process_bootTimeCache out.2 = true /\
  (forall ops,
     host_bootTimeCache (perform_all ops out.2) = true /\
     process_bootTimeCache (perform_all ops out.2) = true).
Proof.
  intros Hcreated. cbv zeta.
  pose proof Hcreated as Hloop. rewrite createAddScraperOptions_eq in Hloop.
  apply createAddScraperOptions_success in Hcreated as [-> ->].
  rewrite createMetricsReceiver_eq, Hloop. simpl.
  repeat split.
  - by rewrite <- app_assoc.
  - by rewrite count_calls_app, count_calls_creations.
  - by rewrite count_calls_app, count_calls_creations.
  - by apply count_calls_creations.
  - by apply perform_all_follows.
  - by apply perform_all_follows.
Qed.

End BootTimeCache.

(** The theorem at work: one [load] scraper, created by a working factory. *)
Lemma boot_time_cache_enabled_once_witness :
  calls (@createMetricsReceiver doubles.collaborators tt tt
           (PtrConfig (Some (doubles.config {[ "load" := "" ]}))) tt
           [("load", "")] (doubles.world doubles.load_only)).2 =
  [@Call_CreateMetricsScraper doubles.collaborators "load";
   @Call_host_EnableBootTimeCache doubles.collaborators true;
   @Call_process_EnableBootTimeCache doubles.collaborators true;
   @Call_NewScraperControllerReceiver doubles.collaborators [Some "load"]].
Proof.
  exact (proj1 (proj2
    (@boot_time_cache_enabled_once doubles.collaborators
       (doubles.world doubles.load_only)
       (after_calls [@Call_CreateMetricsScraper doubles.collaborators "load"]
          (doubles.world doubles.load_only))
       tt tt (doubles.config {[ "load" := "" ]}) tt [("load", "")]
       ([Some "load"]
        : list (@scraperhelper_ScraperControllerOption doubles.collaborators))
       eq_refl))).
Defined.

(** ** The registry *)

Section RegistryLookup.
Context `{Collaborators}.

(** C6. [getScraperFactory(key)] returns the factory the registry maps
    [key] to and [true] when the registry has the key, and [(nil, false)]
    otherwise, and leaves the world as it was; and since no function of the
    file changes [scraperFactories], the same call gives the same result
    after any sequence of calls of those functions. *)
Theorem getScraperFactory_is_pure (w : World) (key : string) :
  getScraperFactory key w =
    (Returns match scraperFactories w !! key with
             | Some factory => (factory, true)
             | None => (None, false)
             end, w) /\
  forall ops,
    scraperFactories (perform_all ops w) = scraperFactories w /\
    (getScraperFactory key (perform_all ops w)).1 =
    (getScraperFactory key w).1.
Proof.
  split; [apply getScraperFactory_eq|].
  intros ops. destruct (perform_all_follows ops w) as [Hregistry _].
  split; [done|]. rewrite !getScraperFactory_eq. simpl. by rewrite Hregistry.
Qed.

(** C7. The configuration [createDefaultConfig] returns is a [*Config] whose
    [MetadataCollectionInterval] is five minutes: 300 seconds, that is
    300 000 000 000 nanoseconds, a value an [int64] holds. *)
Theorem createDefaultConfig_metadata_interval :
  exists c : Config,
    createDefaultConfig = PtrConfig (Some c) /\
    ControllerConfig c = scraperhelper_NewDefaultControllerConfig /\
    MetadataCollectionInterval c = defaultMetadataCollectionInterval /\
    MetadataCollectionInterval c = (5 * time.Minute)%Z /\
    MetadataCollectionInterval c = (300 * time.Second)%Z /\
    MetadataCollectionInterval c = 300000000000%Z /\
    time.representable (MetadataCollectionInterval c).
Proof.
  eexists. split; [reflexivity|]. simpl.
  repeat split; try reflexivity; vm_compute; discriminate.
Qed.

(** C10. For every context, settings, [*Config] (nil included) and logs
    consumer, [createLogsReceiver] returns a non-nil [hostEntitiesReceiver]
    holding that configuration, consumer and settings, and a nil error; it
    looks nothing up in the registry, calls nothing and leaves the world as
    it was. *)
Theorem createLogsReceiver_never_fails ctx set (p : option Config) consumer
    (w : World) :
  createLogsReceiver ctx set (PtrConfig p) consumer w =
  (Returns (Some {| cfg := p; nextLogs := consumer; settings := set |}, None),
   w).
Proof. reflexivity. Qed.

(** A value that is not a [*Config] makes the type assertion of
    [createLogsReceiver] panic. *)
Lemma createLogsReceiver_type_assertion ctx set consumer (w : World) :
  exists msg,
    createLogsReceiver ctx set NotPtrConfig consumer w = (Panics msg, w).
Proof. by eexists. Qed.

(** X1. The registry literal holds no nil factory: a key is found by
    [getScraperFactory] exactly when [createHostMetricsScraper] finds a
    factory for it. *)
Lemma scraperFactories_literal_no_nil `{!ScraperPackages} (key : string) :
  scraperFactories_literal !! key <> Some None.
Proof.
  unfold scraperFactories_literal, Factories. intros Hnil.
  apply elem_of_list_to_map_2 in Hnil.
  unfold scraperFactories_entries in Hnil.
  repeat (apply elem_of_cons in Hnil as [Hnil|Hnil]; [discriminate Hnil|]).
  by apply elem_of_nil in Hnil.
Qed.

End RegistryLookup.

(** The logs path validates no scraper key: with a configured key that has
    no factory, [createMetricsReceiver] returns the error and
    [createLogsReceiver] a receiver. *)
Example logs_path_ignores_unknown_keys :
  let w := doubles.world doubles.load_only in
  let c := doubles.config {[ "zfs" := "" ]} in
  (@createMetricsReceiver doubles.collaborators tt tt (PtrConfig (Some c)) tt
     [("zfs", "")] w).1 =
    Returns (None, Some (Errorf_factory_not_found "zfs")) /\
  (@createLogsReceiver doubles.collaborators tt tt (PtrConfig (Some c)) tt
     w).1 =
    Returns (Some {| cfg := Some c; nextLogs := tt; settings := tt |}, None).
Proof. split; vm_compute; reflexivity. Qed.

(** ** Handle counts *)

Lemma os_changes_keep_manager (s : handlecount.System)
    (changes : list handlecount.Host) :
  (foldl handlecount.os_changes s changes).2 = s.2.
Proof.
  revert s. induction changes as [|os' changes IH]; intros s; [done|].
  simpl. by rewrite IH.
Qed.

(** C4. When [Refresh] can read the operating system's table, it returns no
    error, and from then on, whatever happens to the operating system's table
    before the next refresh, [GetProcessHandleCount(pid)] returns the count
    the table held for [pid] at the refresh, or a not-found error if the
    table held none. *)
Theorem handle_counts_follow_the_refresh (os : handlecount.Host)
    (st : handlecount.HandleCountState) :
  handlecount.query_failure os = None ->
  let refreshed := handlecount.system_Refresh (os, st) in
  refreshed.2 = None /\
  forall (changes : list handlecount.Host) (pid : Z),
    handlecount.system_GetProcessHandleCount
      (foldl handlecount.os_changes refreshed.1 changes) pid =
    match handlecount.handle_table os !! pid with
    | Some count => (count, None)
    | None => (0%Z, Some (handlecount.ErrNotFound pid))
    end.
Proof.
  intros Hread. cbv zeta.
  unfold handlecount.system_Refresh; simpl.
  unfold handlecount.refresh. rewrite Hread. simpl. split; [done|].
  intros changes pid. unfold handlecount.system_GetProcessHandleCount.
  by rewrite os_changes_keep_manager.
Qed.

(** The theorem at work: process 4 holds 17 handles at the refresh and is
    gone from the operating system's table afterwards; process 5 was never
    there. *)
Lemma handle_counts_follow_the_refresh_witness :
  let os := {| handlecount.handle_table := {[ 4%Z := 17%Z ]};
               handlecount.query_failure := None |} in
  let later := {| handlecount.handle_table := {[ 5%Z := 3%Z ]};
                  handlecount.query_failure := None |} in
  let s := handlecount.os_changes
             (handlecount.system_Refresh (os, ∅)).1 later in
  handlecount.system_GetProcessHandleCount s 4 = (17%Z, None) /\
  handlecount.system_GetProcessHandleCount s 5 =
    (0%Z, Some (handlecount.ErrNotFound 5)).
Proof.
  cbv zeta.
  pose proof (handle_counts_follow_the_refresh
                {| handlecount.handle_table := {[ 4%Z := 17%Z ]};
                   handlecount.query_failure := None |} ∅ eq_refl)
    as [_ Hlookup].
  split.
  - exact (Hlookup [{| handlecount.handle_table := {[ 5%Z := 3%Z ]};
                       handlecount.query_failure := None |}] 4%Z).
  - exact (Hlookup [{| handlecount.handle_table := {[ 5%Z := 3%Z ]};
                       handlecount.query_failure := None |}] 5%Z).
Defined.

(** ** Rounds of the controller *)

Section Rounds.
Import controller.







(** *** Scheduling *)

Lemma replay_snoc (h : list Action) (a : Action) (running : option nat)
    (next : nat) :
  replay running next (h ++ [a]) =
  match replay running next h with
  | Some (running', next') => replay running' next' [a]
  | None => None
  end.
Proof.
  revert running next. induction h as [|b h IH]; intros running next.
  - simpl. by destruct (replay running next [a]) as [[? ?]|].
  - destruct b; simpl; destruct running as [m|]; try done;
      try (destruct (Nat.eqb _ _); [apply IH | done]); apply IH.
Qed.

Lemma idle_coherent : coherent idle.
Proof. by left. Qed.

Lemma react_coherent (s : Schedule) (sig : Signal) :
  coherent s -> coherent (react s sig).
Proof.
  intros [[Hidle Hh]|(n & Hrun & Hh)]; unfold react; rewrite ?Hidle, ?Hrun.
  - destruct sig; try (by left).
    right. exists (next_round s). simpl. split; [done|].
    rewrite replay_snoc, Hh. simpl. by rewrite Nat.eqb_refl.
  - destruct sig; simpl.
    + right. exists n. simpl. split; [done|]. by rewrite replay_snoc, Hh.
    + left. simpl. split; [done|].
      rewrite replay_snoc, Hh. simpl. by rewrite Nat.eqb_refl.
    + left. simpl. split; [done|].
      rewrite replay_snoc, Hh. simpl. by rewrite Nat.eqb_refl.
Qed.

Lemma run_coherent (signals : list Signal) : coherent (run signals).
Proof.
  unfold run. generalize idle_coherent. generalize idle.
  induction signals as [|sig signals IH]; intros s Hs; [done|].
  simpl. apply IH. by apply react_coherent.
Qed.

(** C3, as the scheduling is described. After any sequence of timer ticks,
    barrier completions and abandonments, at most one round of the
    controller is in its scrape phase; the history of the controller is
    sequential (a round starts only when none is running, a later round
    only after the earlier one ended or was abandoned); and a tick that
    arrives while a round is running is skipped: the same round, and only
    it, is still running, and no round number is used up. *)
Theorem rounds_never_overlap (signals : list controller.Signal) :
  let s := run signals in
  length (scraping s) <= 1 /\
  sequential (history s) /\
  forall n rest,
    scraping s = n :: rest ->
    rest = [] /\
    scraping (react s Tick) = [n] /\
    next_round (react s Tick) = next_round s /\
    history (react s Tick) = history s ++ [SkipTick].
Proof.
  cbv zeta. pose proof (run_coherent signals) as Hs.
  destruct Hs as [[Hidle Hh]|(m & Hrun & Hh)].
  - rewrite Hidle. unfold sequential. rewrite Hh.
    split; [simpl; lia|]. split; [by eexists|]. intros n rest [=].
  - rewrite Hrun. unfold sequential. rewrite Hh.
    split; [simpl; lia|]. split; [by eexists|].
    intros n rest [= <- <-]. unfold react. by rewrite Hrun.
Qed.

(** The theorem at work: the second and third ticks find round 0 running
    and are skipped; round 1 starts after round 0 has ended. *)
Lemma rounds_never_overlap_witness :
  history (run [Tick; Tick; Tick; BarrierDone; Tick]) =
    [StartRound 0; SkipTick; SkipTick; EndRound 0; StartRound 1] /\
  history (react (run [Tick; Tick]) Tick) =
    history (run [Tick; Tick]) ++ [SkipTick].
Proof.
  split; [reflexivity|].
  exact (proj2 (proj2 (proj2 (proj2 (proj2
           (rounds_never_overlap [Tick; Tick])) 0 [] eq_refl)))).
Defined.

End Rounds.

(** ** The construction as a function of the visit *)

Section OutlineFacts.
Context `{Collaborators}.

Lemma first_uncreated_none factories ctx set
    (visit : list (string * internal_Config)) :
  forallb (creates factories ctx set) visit = true ->
  first_uncreated factories ctx set visit = None.
Proof.
  unfold first_uncreated. induction visit as [|entry visit IH]; [done|].
  simpl. intros [Hentry Hrest]%andb_prop. rewrite Hentry. simpl. by apply IH.
Qed.

Lemma first_uncreated_stop factories ctx set
    (pre : list (string * internal_Config)) entry post :
  forallb (creates factories ctx set) pre = true ->
  creates factories ctx set entry = false ->
  first_uncreated factories ctx set (pre ++ entry :: post) = Some entry.
Proof.
  unfold first_uncreated. intros Hpre Hentry.
  induction pre as [|e pre IH]; simpl.
  - by rewrite Hentry.
  - simpl in Hpre. apply andb_prop in Hpre as [He Hpre].
    rewrite He. simpl. by apply IH.
Qed.

Lemma creation_calls_all factories ctx set
    (visit : list (string * internal_Config)) :
  forallb (creates factories ctx set) visit = true ->
  creation_calls factories ctx set visit = create_calls visit.
Proof.
  induction visit as [|entry visit IH]; [done|]. simpl.
  intros [Hentry Hrest]%andb_prop. rewrite Hentry. by rewrite IH.
Qed.

Lemma creation_calls_stop factories ctx set
    (pre : list (string * internal_Config)) entry post :
  forallb (creates factories ctx set) pre = true ->
  creates factories ctx set entry = false ->
  creation_calls factories ctx set (pre ++ entry :: post) =
  create_calls pre ++ stop_calls factories entry.
Proof.
  intros Hpre Hentry. induction pre as [|e pre IH]; simpl.
  - by rewrite Hentry.
  - simpl in Hpre. apply andb_prop in Hpre as [He Hpre].
    rewrite He. by rewrite IH.
Qed.

(** What the first entry that is not created looks like. *)
Lemma first_uncreated_Some factories ctx set
    (visit : list (string * internal_Config)) entry :
  first_uncreated factories ctx set visit = Some entry ->
  entry ∈ visit /\ creates factories ctx set entry = false.
Proof.
  unfold first_uncreated. intros Hfind.
  apply List.find_some in Hfind as [Hin Hbad].
  split; [by apply list_elem_of_In|]. by apply negb_true_iff.
Qed.

Lemma first_uncreated_None factories ctx set
    (visit : list (string * internal_Config)) :
  first_uncreated factories ctx set visit = None ->
  forallb (creates factories ctx set) visit = true.
Proof.
  unfold first_uncreated. intros Hfind. apply forallb_forall.
  intros entry Hin. pose proof (List.find_none _ _ Hfind entry Hin) as Hgood.
  by apply negb_false_iff.
Qed.

(** The loop, from an empty slice, as a function of the visit. *)
Lemma range_Scrapers_outline ctx set (factories : Factories)
    (visit : list (string * internal_Config)) (w : World) :
  range_Scrapers ctx set factories visit [] w =
  (Returns (addScraperOptions_result factories ctx set visit),
   after_calls (creation_calls factories ctx set visit) w).
Proof.
  unfold addScraperOptions_result.
  destruct (forallb (creates factories ctx set) visit) eqn:Hall.
  - rewrite (range_Scrapers_all_created _ _ _ _ _ _ Hall).
    by rewrite (first_uncreated_none _ _ _ _ Hall),
               (creation_calls_all _ _ _ _ Hall).
  - destruct (first_not_created _ _ _ _ Hall)
      as (pre & entry & post & -> & Hpre & Hbad).
    rewrite (range_Scrapers_stops _ _ _ _ _ _ _ _ Hpre Hbad).
    by rewrite (first_uncreated_stop _ _ _ _ _ _ Hpre Hbad),
               (creation_calls_stop _ _ _ _ _ _ Hpre Hbad).
Qed.

(** X2. The loop of [createAddScraperOptions] is decided by the first entry
    of the visit that is not created: without one it returns one option per
    entry, in the order of the visit, and a nil error; with one it returns
    no option and the error of that entry, however many entries after it
    could not be created either. It calls [CreateMetricsScraper] once for
    each entry before that one, in order, and for that one if it has a
    factory, and no factory of a later entry. Nothing else of the world
    changes. *)
Theorem createAddScraperOptions_first_failure ctx set (c : Config)
    (factories : Factories) (visit : list (string * internal_Config))
    (w : World) :
  createAddScraperOptions ctx set (Some c) factories visit w =
  (Returns (addScraperOptions_result factories ctx set visit),
   after_calls (creation_calls factories ctx set visit) w).
Proof. rewrite createAddScraperOptions_eq. apply range_Scrapers_outline. Qed.

(** X3. [createMetricsReceiver] on a [*Config] that is not nil: it returns
    the error of the first entry that is not created, or else whatever
    [NewScraperControllerReceiver] returns for the options of the visit. The
    two boot-time caches are switched on, and the controller is asked for,
    exactly when every entry was created, whether or not the controller's
    constructor then fails; otherwise both switches are as they were. The
    registry is never changed. *)
Theorem createMetricsReceiver_outline ctx set (c : Config) consumer
    (visit : list (string * internal_Config)) (w : World) :
  let factories := scraperFactories w in
  let out :=
    createMetricsReceiver ctx set (PtrConfig (Some c)) consumer visit w in
  out.1 = Returns (metricsReceiver_result factories ctx set c consumer visit) /\
  calls out.2 =
    calls w ++ creation_calls factories ctx set visit ++
    startup_calls factories ctx set visit /\
  scraperFactories out.2 = factories /\
  (host_bootTimeCache out.2, process_bootTimeCache out.2) =
    match first_uncreated factories ctx set visit with
    | None => (true, true)
    | Some _ => (host_bootTimeCache w, process_bootTimeCache w)
    end /\
  count_calls is_controller_call (calls out.2) =
    count_calls is_controller_call (calls w) +
    match first_uncreated factories ctx set visit with
    | None => 1
    | Some _ => 0
    end.
Proof.
  cbv zeta. rewrite createMetricsReceiver_eq.
  rewrite range_Scrapers_outline.
  unfold addScraperOptions_result, metricsReceiver_result, startup_calls.
  destruct (first_uncreated (scraperFactories w) ctx set visit)
    as [entry|] eqn:Hfirst; simpl.
  - repeat split; [by rewrite app_nil_r|].
    rewrite count_calls_app. f_equal.
    apply first_uncreated_Some in Hfirst as [Hin Hbad].
    destruct (forallb (creates (scraperFactories w) ctx set) visit) eqn:Hall.
    { rewrite forallb_forall in Hall.
      apply list_elem_of_In in Hin. rewrite (Hall _ Hin) in Hbad. done. }
    destruct (first_not_created _ _ _ _ Hall)
      as (pre & bad & post & -> & Hpre & Hbad').
    rewrite (creation_calls_stop _ _ _ _ _ _ Hpre Hbad'), count_calls_app.
    rewrite count_calls_creations by done.
    unfold stop_calls. by destruct (index (scraperFactories w) bad.1).
  - apply first_uncreated_None in Hfirst.
    rewrite (creation_calls_all _ _ _ _ Hfirst).
    repeat split; [by rewrite <- app_assoc|].
    rewrite <- app_assoc, !count_calls_app.
    rewrite count_calls_creations by done. unfold count_calls. simpl. lia.
Qed.

End OutlineFacts.

(** ** The order of the visit *)

Section VisitOrder.
Context `{Collaborators}.

Lemma forallb_Permutation {A : Type} (f : A -> bool) (l1 l2 : list A) :
  l1 ≡ₚ l2 -> forallb f l1 = forallb f l2.
Proof.
  induction 1 as [|x l l' _ IH|x y l|l l' l'' _ IH1 _ IH2]; simpl.
  - done.
  - by rewrite IH.
  - by destruct (f x), (f y).
  - congruence.
Qed.

Lemma options_of_Permutation factories ctx set
    (visit1 visit2 : list (string * internal_Config)) :
  visit1 ≡ₚ visit2 ->
  options_of factories ctx set visit1 ≡ₚ options_of factories ctx set visit2.
Proof. intros Hperm. unfold options_of. by apply Permutation_map. Qed.

(** X4. Two executions of [createAddScraperOptions] on the same
    configuration and registry, whatever the order in which each visits the
    map: both return a nil error or both return an error; the options they
    return are the same up to their order; and when at most one configured
    entry cannot be created, they return the same error. *)
Theorem createAddScraperOptions_order_independence ctx set (c : Config)
    (factories : Factories) (visit1 visit2 : list (string * internal_Config))
    (w1 w2 : World) :
  visit1 ≡ₚ visit2 ->
  exists options1 err1 options2 err2,
    (createAddScraperOptions ctx set (Some c) factories visit1 w1).1 =
      Returns (options1, err1) /\
    (createAddScraperOptions ctx set (Some c) factories visit2 w2).1 =
      Returns (options2, err2) /\
    (err1 = None <-> err2 = None) /\
    options1 ≡ₚ options2 /\
    ((forall a b, a ∈ visit1 -> b ∈ visit1 ->
                  creates factories ctx set a = false ->
                  creates factories ctx set b = false -> a = b) ->
     err1 = err2).
Proof.
  intros Hperm. rewrite !createAddScraperOptions_eq, !range_Scrapers_outline.
  unfold addScraperOptions_result. simpl.
  pose proof (forallb_Permutation (creates factories ctx set) _ _ Hperm)
    as Hsame.
  destruct (first_uncreated factories ctx set visit1) as [a|] eqn:H1;
    destruct (first_uncreated factories ctx set visit2) as [b|] eqn:H2.
  - do 4 eexists. repeat split; try done.
    intros Hunique.
    apply first_uncreated_Some in H1 as [Ha Hbada].
    apply first_uncreated_Some in H2 as [Hb Hbadb].
    rewrite <- Hperm in Hb. by rewrite (Hunique a b Ha Hb Hbada Hbadb).
  - apply first_uncreated_None in H2. rewrite <- Hsame in H2.
    apply first_uncreated_none in H2. congruence.
  - apply first_uncreated_None in H1. rewrite Hsame in H1.
    apply first_uncreated_none in H1. congruence.
  - do 4 eexists. repeat split; try done.
    by apply options_of_Permutation.
Qed.

(** X5. When [createAddScraperOptions] returns an error, it returns no
    option, and the error is about a visited entry: either "factory not
    found", for a key whose factory is nil, which wraps nothing; or "failed
    to create scraper", for a key whose factory returned the error it
    wraps. *)
Theorem createAddScraperOptions_error_classification ctx set (c : Config)
    (factories : Factories) (visit : list (string * internal_Config))
    (w : World) options e :
  (createAddScraperOptions ctx set (Some c) factories visit w).1 =
    Returns (options, Some e) ->
  options = [] /\
  exists key cfg,
    (key, cfg) ∈ visit /\ error_key e = Some key /\
    ((index factories key = None /\
      e = Errorf_factory_not_found key /\ Unwrap e = None) \/
     (exists factory e',
        index factories key = Some factory /\
        (CreateMetricsScraper factory ctx set cfg).2 = Some e' /\
        e = Errorf_failed_to_create_scraper key e' /\ Unwrap e = Some e')).
Proof.
  rewrite createAddScraperOptions_eq, range_Scrapers_outline.
  unfold addScraperOptions_result. simpl.
  destruct (first_uncreated factories ctx set visit) as [[key cfg]|] eqn:Hfirst;
    [|done].
  intros [= <- <-]. split; [done|].
  apply first_uncreated_Some in Hfirst as [Hin Hbad].
  exists key, cfg. split; [done|].
  unfold creates in Hbad. unfold stop_error. simpl in *.
  destruct (index factories key) as [factory|].
  - destruct ((CreateMetricsScraper factory ctx set cfg).2) as [e'|] eqn:He;
      [|done].
    split; [done|]. right. by exists factory, e'.
  - split; [done|]. by left.
Qed.

(** X6. When [createAddScraperOptions] returns a nil error, it has called
    [CreateMetricsScraper] once per configured key and nothing else, and
    returns as many options as the configuration has keys. *)
Theorem createAddScraperOptions_one_option_per_key ctx set (c : Config)
    (factories : Factories) (visit : list (string * internal_Config))
    (w w1 : World) options :
  visit ≡ₚ map_to_list (Scrapers c) ->
  createAddScraperOptions ctx set (Some c) factories visit w =
    (Returns (options, None), w1) ->
  length options = size (Scrapers c) /\
  exists trace,
    w1 = after_calls trace w /\ length trace = size (Scrapers c) /\
    Forall is_create trace /\
    forall key, Call_CreateMetricsScraper key ∈ trace <->
                is_Some (Scrapers c !! key).
Proof.
  intros Hvisit Hrun.
  assert (Hlen : length visit = size (Scrapers c)).
  { by rewrite Hvisit, length_map_to_list. }
  rewrite createAddScraperOptions_eq, range_Scrapers_outline in Hrun.
  unfold addScraperOptions_result in Hrun.
  destruct (first_uncreated factories ctx set visit) eqn:Hfirst; [done|].
  apply first_uncreated_None in Hfirst.
  rewrite (creation_calls_all _ _ _ _ Hfirst) in Hrun.
  injection Hrun as <- <-.
  split; [unfold options_of; by rewrite length_map|].
  exists (create_calls visit). split; [done|].
  split; [unfold create_calls; by rewrite length_map|].
  split; [apply create_calls_are_creations|].
  intros key. unfold create_calls. split.
  - intros Hcall. apply list_elem_of_In, in_map_iff in Hcall
      as ([k cfg] & [= <-] & Hin).
    exists cfg. apply elem_of_map_to_list. rewrite <- Hvisit.
    by apply list_elem_of_In.
  - intros [cfg Hcfg]. apply list_elem_of_In, in_map_iff.
    exists (key, cfg). split; [done|]. apply list_elem_of_In.
    rewrite Hvisit. by apply elem_of_map_to_list.
Qed.

End VisitOrder.

(** The theorem at work: [load] is created and [zfs] has no factory; either
    order of the visit returns the same error. *)
Lemma createAddScraperOptions_order_independence_witness :
  exists options1 err1 options2 err2,
    (@createAddScraperOptions doubles.collaborators tt tt
       (Some (doubles.config {[ "load" := ""; "zfs" := "" ]}))
       doubles.load_only [("load", ""); ("zfs", "")]
       (doubles.world doubles.load_only)).1 = Returns (options1, err1) /\
    (@createAddScraperOptions doubles.collaborators tt tt
       (Some (doubles.config {[ "load" := ""; "zfs" := "" ]}))
       doubles.load_only [("zfs", ""); ("load", "")]
       (doubles.world doubles.load_only)).1 = Returns (options2, err2) /\
    err1 = Some (Errorf_factory_not_found "zfs") /\ err1 = err2.
Proof.
  destruct (@createAddScraperOptions_order_independence
              doubles.collaborators tt tt
              (doubles.config {[ "load" := ""; "zfs" := "" ]})
              doubles.load_only [("load", ""); ("zfs", "")]
              [("zfs", ""); ("load", "")]
              (doubles.world doubles.load_only)
              (doubles.world doubles.load_only)
              (perm_swap _ _ _))
    as (options1 & err1 & options2 & err2 & H1 & H2 & _ & _ & Hsame).
  exists options1, err1, options2, err2.
  split; [exact H1|]. split; [exact H2|]. split.
  - vm_compute in H1. congruence.
  - apply Hsame. intros a b Ha Hb Hbada Hbadb.
    apply elem_of_cons in Ha as [->|Ha]; [discriminate Hbada|].
    apply elem_of_cons in Hb as [->|Hb]; [discriminate Hbadb|].
    apply list_elem_of_singleton in Ha, Hb. congruence.
Defined.

(** The theorem at work: [load] is created, then the [process] factory
    fails. *)
Lemma createAddScraperOptions_error_classification_witness :
  let e := Errorf_failed_to_create_scraper "process"
             (errorString "process scraper not available") in
  exists key cfg,
    (key, cfg) ∈ [("load", ""); ("process", "")] /\
    error_key e = Some key /\
    ((@index doubles.collaborators fixtures.load_and_process key = None /\
      e = Errorf_factory_not_found key /\ Unwrap e = None) \/
     (exists factory e',
        @index doubles.collaborators fixtures.load_and_process key =
          Some factory /\
        (CreateMetricsScraper factory tt tt cfg).2 = Some e' /\
        e = Errorf_failed_to_create_scraper key e' /\ Unwrap e = Some e')).
Proof.
  exact (proj2
    (@createAddScraperOptions_error_classification
       doubles.collaborators tt tt
       (doubles.config {[ "load" := ""; "process" := "" ]})
       fixtures.load_and_process [("load", ""); ("process", "")]
       (doubles.world fixtures.load_and_process) []
       (Errorf_failed_to_create_scraper "process"
          (errorString "process scraper not available"))
       eq_refl)).
Defined.

(** The theorem at work: one configured key, one creation, one option. *)
Lemma createAddScraperOptions_one_option_per_key_witness :
  length [Some "load"] =
  size (@Scrapers doubles.collaborators (doubles.config {[ "load" := "" ]})).
Proof.
  assert (Hvisit : [("load", "")] ≡ₚ
            map_to_list (@Scrapers doubles.collaborators
                           (doubles.config {[ "load" := "" ]}))).
  { simpl. by rewrite map_to_list_singleton. }
  exact (proj1
    (@createAddScraperOptions_one_option_per_key doubles.collaborators tt tt
       (doubles.config {[ "load" := "" ]}) doubles.load_only [("load", "")]
       (doubles.world doubles.load_only)
       (after_calls [@Call_CreateMetricsScraper doubles.collaborators "load"]
          (doubles.world doubles.load_only))
       ([Some "load"]
        : list (@scraperhelper_ScraperControllerOption doubles.collaborators))
       Hvisit eq_refl)).
Defined.

(** ** Configurations the functions do not return for *)

Section Panics.
Context `{Collaborators}.

(** X7. A nil [*Config] and a configuration of another dynamic type stop
    [createMetricsReceiver] before it has called a factory or switched a
    cache: it panics and leaves the world as it was, as does
    [createAddScraperOptions] on a nil [*Config]. [createLogsReceiver]
    returns exactly when the configuration is a [*Config], nil or not, and
    panics, leaving the world as it was, on any other. *)
Theorem bad_configuration_panics ctx set (w : World) :
  (forall consumer visit,
     exists msg,
       createMetricsReceiver ctx set (PtrConfig None) consumer visit w =
       (Panics msg, w)) /\
  (forall consumer visit,
     exists msg,
       createMetricsReceiver ctx set NotPtrConfig consumer visit w =
       (Panics msg, w)) /\
  (forall factories visit,
     exists msg,
       createAddScraperOptions ctx set None factories visit w =
       (Panics msg, w)) /\
  (forall cfg consumer,
     (exists r w',
        createLogsReceiver ctx set cfg consumer w = (Returns r, w'))
     <-> exists p, cfg = PtrConfig p) /\
  (forall consumer,
     exists msg,
       createLogsReceiver ctx set NotPtrConfig consumer w = (Panics msg, w)).
Proof.
  refine (conj _ (conj _ (conj _ (conj _ _)))); try (intros; by eexists).
  intros cfg consumer. split.
  - intros (r & w' & Hr). destruct cfg as [p|]; [by exists p | done].
  - intros [p ->]. by do 2 eexists.
Qed.

(** X8. A configuration without scrapers, the one [createDefaultConfig]
    returns among them, is no error: [createMetricsReceiver] calls no
    factory, switches both boot-time caches on and returns what
    [NewScraperControllerReceiver] returns for no scraper at all. *)
Theorem createMetricsReceiver_without_scrapers ctx set (c : Config) consumer
    (visit : list (string * internal_Config)) (w : World) :
  Scrapers c = ∅ ->
  visit ≡ₚ map_to_list (Scrapers c) ->
  createMetricsReceiver ctx set (PtrConfig (Some c)) consumer visit w =
    (Returns (scraperhelper_NewScraperControllerReceiver
                (ControllerConfig c) set consumer []),
     after_calls [Call_host_EnableBootTimeCache true;
                  Call_process_EnableBootTimeCache true;
                  Call_NewScraperControllerReceiver []] (enabled w)) /\
  createMetricsReceiver ctx set createDefaultConfig consumer [] w =
    (Returns (scraperhelper_NewScraperControllerReceiver
                scraperhelper_NewDefaultControllerConfig set consumer []),
     after_calls [Call_host_EnableBootTimeCache true;
                  Call_process_EnableBootTimeCache true;
                  Call_NewScraperControllerReceiver []] (enabled w)).
Proof.
  intros Hempty Hvisit. rewrite Hempty, map_to_list_empty in Hvisit.
  apply Permutation_nil_r in Hvisit as ->.
  unfold createDefaultConfig. rewrite !createMetricsReceiver_eq. simpl.
  done.
Qed.

(** X9. The two lookups of the file give the same answer for every key,
    [getScraperFactory] saying found where [createHostMetricsScraper] on
    the registry says ok, exactly when the registry holds no nil factory:
    for a key that holds nil the first says found and the second does
    not. *)
Theorem lookups_agree_iff_no_nil (w : World) ctx set cfg :
  (forall key, found w key <-> ok w ctx set key cfg) <->
  (forall key, scraperFactories w !! key <> Some None).
Proof.
  assert (Hfound : forall key,
            found w key <-> is_Some (scraperFactories w !! key)).
  { intros key. unfold found. rewrite getScraperFactory_eq. simpl.
    destruct (scraperFactories w !! key) as [factory|]; split.
    - by eexists.
    - by eexists.
    - by intros [factory [=]].
    - by intros [x Hx]. }
  assert (Hok : forall key,
            ok w ctx set key cfg <-> is_Some (index (scraperFactories w) key)).
  { intros key. unfold ok. rewrite createHostMetricsScraper_eq.
    destruct (index (scraperFactories w) key) as [factory|]; split.
    - by eexists.
    - by do 2 eexists.
    - by intros (s & err & [=]).
    - by intros [x Hx]. }
  split.
  - intros Hagree key Hnil.
    assert (Hf : found w key) by (apply Hfound; by eexists).
    apply Hagree, Hok in Hf as [factory Hfactory].
    unfold index in Hfactory. by rewrite Hnil in Hfactory.
  - intros Hnonil key. rewrite Hfound, Hok. unfold index.
    specialize (Hnonil key).
    destruct (scraperFactories w !! key) as [[factory|]|]; split;
      try done; try (by eexists); by intros [x Hx].
Qed.

End Panics.

(** The theorem at work: a configuration without scrapers. *)
Lemma createMetricsReceiver_without_scrapers_witness :
  (@createMetricsReceiver doubles.collaborators tt tt
     (PtrConfig (Some (doubles.config ∅))) tt []
     (doubles.world doubles.load_only)).1 = Returns (Some [], None).
Proof.
  exact (f_equal fst (proj1
    (@createMetricsReceiver_without_scrapers doubles.collaborators
       tt tt (doubles.config ∅) tt []
       (doubles.world doubles.load_only) eq_refl
       (eq_ind_r (fun l => [] ≡ₚ l) (perm_nil _)
          (@map_to_list_empty string (gmap string) _ _ _ _ _ _ _ _ _
             string))))).
Defined.

(** ** The registry as it is initialised *)

Section InitialRegistry.
Context `{ScraperPackages}.

(** X10. If the ten type strings are different from each other, the
    registry has ten keys; [getScraperFactory] returns for each type string
    the factory the literal writes next to it, for [loadscraper.TypeStr]
    the load scraper's factory, and [(nil, false)] for every other key. *)
Theorem scraperFactories_literal_lookup (flags : bool * bool) :
  NoDup scraperFactories_entries.*1 ->
  size scraperFactories_literal = 10 /\
  (forall key factory,
     (key, Some factory) ∈ scraperFactories_entries ->
     (getScraperFactory key (initial_World flags)).1 =
       Returns (Some factory, true)) /\
  (getScraperFactory loadscraper.TypeStr (initial_World flags)).1 =
    Returns (Some loadscraper_Factory, true) /\
  (forall key,
     key ∉ scraperFactories_entries.*1 ->
     (getScraperFactory key (initial_World flags)).1 = Returns (None, false)).
Proof.
  intros Hdistinct.
  assert (Hentry : forall key factory,
            (key, Some factory) ∈ scraperFactories_entries ->
            (getScraperFactory key (initial_World flags)).1 =
              Returns (Some factory, true)).
  { intros key factory Hin. rewrite getScraperFactory_eq. simpl.
    unfold scraperFactories_literal, Factories.
    by rewrite (elem_of_list_to_map_1 _ _ _ Hdistinct Hin). }
  split; [|split; [exact Hentry|split]].
  - unfold scraperFactories_literal, Factories.
    by rewrite (map_size_list_to_map _ Hdistinct).
  - apply Hentry. unfold scraperFactories_entries.
    do 2 (apply elem_of_cons; right). apply elem_of_cons. by left.
  - intros key Hkey. rewrite getScraperFactory_eq. simpl.
    unfold scraperFactories_literal, Factories.
    by rewrite (not_elem_of_list_to_map_1 _ _ Hkey).
Qed.

End InitialRegistry.

(** The theorem at work: ten made-up type strings, all different. *)
Lemma scraperFactories_literal_lookup_witness :
  (@getScraperFactory doubles.collaborators "load"
     (@initial_World doubles.collaborators fixtures.packages
        (false, false))).1 =
  Returns (Some (doubles.working "load"), true).
Proof.
  assert (Hdistinct :
    NoDup (@scraperFactories_entries doubles.collaborators
             fixtures.packages).*1).
  { apply (bool_decide_unpack _). vm_compute. exact I. }
  exact (proj1 (proj2 (proj2
    (@scraperFactories_literal_lookup doubles.collaborators fixtures.packages
       (false, false) Hdistinct)))).
Defined.

(** The agreement of the lookups at work: in a registry whose [load] key
    holds the nil factory they disagree. *)
Lemma lookups_agree_iff_no_nil_witness :
  ~ (forall key,
       @found doubles.collaborators (doubles.world fixtures.nil_load) key <->
       @ok doubles.collaborators (doubles.world fixtures.nil_load)
         tt tt key "").
Proof.
  intros Hagree.
  exact (proj1 (@lookups_agree_iff_no_nil doubles.collaborators
                  (doubles.world fixtures.nil_load) tt tt "")
           Hagree "load" eq_refl).
Defined.
